(** * githubRepoStats: the GitHub GraphQL client and its two tool handlers

    A shallow embedding of [githubRepoStats.py].  The program is dynamically
    typed Python working on whatever [response.json()] hands back, so the
    embedding starts with the fragment of the Python runtime the program
    touches (values, truthiness, [in], subscripting, [len], iteration,
    [str.join], [str()] and exceptions), then the HTTP exchange, the client
    [make_github_request], and the handlers [get_repository_info] and
    [get_user_info]. *)

From Stdlib Require Import String Ascii ZArith List Bool Lia DecimalString.
Import ListNotations.

Local Open Scope Z_scope.
Local Open Scope string_scope.
Set Warnings "-register-all".

(** ** The Python runtime fragment *)

Module Py.

(** Exceptions, by class.  Every one of them derives from [Exception]; the
    two httpx classes are the ones [make_github_request] names in its
    [except] clauses. *)
Inductive exn : Type :=
| TypeError
| KeyError
| IndexError
| AttributeError
| ValueError                        (* json.JSONDecodeError is a ValueError *)
| TimeoutException                  (* httpx.TimeoutException *)
| HTTPStatusError (status_code : Z) (* httpx.HTTPStatusError, with e.response.status_code *)
| ConnectError.                     (* httpx.ConnectError, any other transport fault *)

(** A computation either returns or raises. *)
Inductive result (A : Type) : Type :=
| Ok (a : A)
| Raise (e : exn).
Arguments Ok {A} a.
Arguments Raise {A} e.

Definition bind {A B : Type} (c : result A) (k : A -> result B) : result B :=
  match c with
  | Ok a => k a
  | Raise e => Raise e
  end.

Declare Scope py_scope.
Delimit Scope py_scope with py.
Notation "x <- c ;; k" := (bind c (fun x => k))
  (at level 61, c at next level, right associativity) : py_scope.
Notation "'raise' e" := (Raise e) (at level 60) : py_scope.
Local Open Scope py_scope.

(** A float is kept abstract: the program only ever observes whether it is
    zero (truthiness) and what [repr] prints for it. *)
Record pyfloat : Type := { float_nonzero : bool; float_repr : string }.

(** What [json.loads] can produce: None, bool, int, float, str, list, dict.
    A dict keeps its insertion order; its keys are distinct, and a lookup
    takes the first binding of a key. *)
Inductive value : Type :=
| VNone
| VBool (b : bool)
| VInt (n : Z)
| VFloat (f : pyfloat)
| VStr (s : string)
| VList (items : list value)
| VDict (bindings : list (string * value)).

(** [bool(v)], as [if v], [not v] and [and] test it. *)
Definition truthy (v : value) : bool :=
  match v with
  | VNone => false
  | VBool b => b
  | VInt n => negb (n =? 0)%Z
  | VFloat f => float_nonzero f
  | VStr s => negb (s =? "")%string
  | VList [] => false
  | VList (_ :: _) => true
  | VDict [] => false
  | VDict (_ :: _) => true
  end.

Fixpoint dict_get (k : string) (d : list (string * value)) : option value :=
  match d with
  | [] => None
  | (k', v) :: rest => if (k =? k')%string then Some v else dict_get k rest
  end.

(** [needle in hay] on two strs: substring search. *)
Fixpoint contains (needle hay : string) : bool :=
  prefix needle hay ||
  match hay with
  | EmptyString => false
  | String _ rest => contains needle rest
  end.

(** [v == s] for a str [s]: only an equal str compares equal. *)
Definition eq_str (s : string) (v : value) : bool :=
  match v with
  | VStr s' => (s =? s')%string
  | _ => false
  end.

(** [s in v] for a str [s]: key membership on a dict, element membership
    on a list, substring on a str, TypeError on anything else. *)
Definition py_in (s : string) (v : value) : result bool :=
  match v with
  | VDict d => Ok (match dict_get s d with Some _ => true | None => false end)
  | VList l => Ok (existsb (eq_str s) l)
  | VStr h => Ok (contains s h)
  | _ => raise TypeError
  end.

(** [v[k]] for a str key [k]. *)
Definition subscript (v : value) (k : string) : result value :=
  match v with
  | VDict d => match dict_get k d with Some x => Ok x | None => raise KeyError end
  | _ => raise TypeError
  end.

(** [v[0]].  A dict built from JSON has str keys only, so 0 is never one. *)
Definition subscript0 (v : value) : result value :=
  match v with
  | VList (x :: _) => Ok x
  | VList [] => raise IndexError
  | VStr (String c _) => Ok (VStr (String c EmptyString))
  | VStr EmptyString => raise IndexError
  | VDict _ => raise KeyError
  | _ => raise TypeError
  end.

(** [len(v)]. *)
Definition py_len (v : value) : result Z :=
  match v with
  | VList l => Ok (Z.of_nat (List.length l))
  | VDict d => Ok (Z.of_nat (List.length d))
  | VStr s => Ok (Z.of_nat (String.length s))
  | _ => raise TypeError
  end.

Fixpoint chars (s : string) : list value :=
  match s with
  | EmptyString => []
  | String c rest => VStr (String c EmptyString) :: chars rest
  end.

(** The items [for x in v] runs through. *)
Definition py_iter (v : value) : result (list value) :=
  match v with
  | VList l => Ok l
  | VDict d => Ok (map (fun kv => VStr (fst kv)) d)
  | VStr s => Ok (chars s)
  | _ => raise TypeError
  end.

(** [v.get(k, default)]: a dict method, an AttributeError elsewhere. *)
Definition get_default (v : value) (k : string) (default : value) : result value :=
  match v with
  | VDict d => Ok (match dict_get k d with Some x => x | None => default end)
  | _ => raise AttributeError
  end.

(** The operand of a [+] whose other operand is a str must be a str. *)
Definition as_str (v : value) : result string :=
  match v with
  | VStr s => Ok s
  | _ => raise TypeError
  end.

(** [[f(x) for x in l]], stopping at the first exception. *)
Fixpoint comprehension {A B : Type} (f : A -> result B) (l : list A) : result (list B) :=
  match l with
  | [] => Ok []
  | x :: rest => y <- f x ;; ys <- comprehension f rest ;; Ok (y :: ys)
  end.

(** [sep.join(l)]: every item must be a str. *)
Definition join (sep : string) (l : list value) : result string :=
  strs <- comprehension as_str l ;; Ok (String.concat sep strs).

(** *** Printing *)

Definition py_int_str (n : Z) : string := NilZero.string_of_int (Z.to_int n).

Definition hex_digit (n : N) : ascii :=
  ascii_of_N (if (n <? 10)%N then 48 + n else 87 + n).

(** Strings are read as sequences of code points below 256.  Of these,
    [repr] escapes the C0 and C1 controls, DEL, the no-break space and the
    soft hyphen, and prints the rest as they are. *)
Definition printable (c : ascii) : bool :=
  let n := N_of_ascii c in
  ((32 <=? n) && (n <? 127) || (161 <=? n) && negb (n =? 173))%N.

Definition repr_char (quote c : ascii) : string :=
  let n := N_of_ascii c in
  if Ascii.eqb c quote || Ascii.eqb c "\" then String "\" (String c EmptyString)
  else if (n =? 9)%N then "\t"
  else if (n =? 10)%N then "\n"
  else if (n =? 13)%N then "\r"
  else if printable c then String c EmptyString
  else String "\" (String "x" (String (hex_digit (n / 16)) (String (hex_digit (n mod 16)) EmptyString))).

Definition double_quote : ascii := ascii_of_N 34.

Fixpoint has_char (c : ascii) (s : string) : bool :=
  match s with
  | EmptyString => false
  | String c' rest => Ascii.eqb c c' || has_char c rest
  end.

Fixpoint repr_chars (quote : ascii) (s : string) : string :=
  match s with
  | EmptyString => EmptyString
  | String c rest => repr_char quote c ++ repr_chars quote rest
  end.

(** [repr(s)]: single quotes, unless the str has one and no double quote. *)
Definition repr_str (s : string) : string :=
  let quote := if has_char "'" s && negb (has_char double_quote s) then double_quote else "'"%char in
  String quote (repr_chars quote s ++ String quote EmptyString).

Fixpoint py_repr (v : value) : string :=
  match v with
  | VNone => "None"
  | VBool true => "True"
  | VBool false => "False"
  | VInt n => py_int_str n
  | VFloat f => float_repr f
  | VStr s => repr_str s
  | VList l => "[" ++ String.concat ", " (map py_repr l) ++ "]"
  | VDict d =>
      "{" ++ String.concat ", " (map (fun kv => repr_str (fst kv) ++ ": " ++ py_repr (snd kv)) d) ++ "}"
  end.

(** [str(v)], which is what a replacement field [{v}] of an f-string
    prints: a str as it is, everything else as [repr]. *)
Definition py_str (v : value) : string :=
  match v with
  | VStr s => s
  | _ => py_repr v
  end.

(** *** The two str methods applied to the query text *)

(** [s.replace(old, " ")] for a one-character [old]. *)
Fixpoint replace_char (old new : ascii) (s : string) : string :=
  match s with
  | EmptyString => EmptyString
  | String c rest => String (if Ascii.eqb c old then new else c) (replace_char old new rest)
  end.

Definition is_space (c : ascii) : bool :=
  let n := N_of_ascii c in
  ((9 <=? n) && (n <=? 13) || (28 <=? n) && (n <=? 32) || (n =? 133) || (n =? 160))%N.

Fixpoint lstrip (s : string) : string :=
  match s with
  | EmptyString => EmptyString
  | String c rest => if is_space c then lstrip rest else s
  end.

Fixpoint rstrip (s : string) : string :=
  match s with
  | EmptyString => EmptyString
  | String c rest =>
      match rstrip rest with
      | EmptyString => if is_space c then EmptyString else String c EmptyString
      | kept => String c kept
      end
  end.

Definition strip (s : string) : string := rstrip (lstrip s).

Definition newline : string := String (ascii_of_N 10) EmptyString.

End Py.

Import Py.
Local Open Scope py_scope.

(** ** The HTTP exchange *)

(** What [client.post] is given. *)
Record request : Type := {
  url : string;
  headers : list (string * string);
  json : value;
  timeout : Z                       (* seconds *)
}.

(** What [client.post] returns: the status line and the body as
    [response.json()] parses it, [None] when parsing it raises. *)
Record response : Type := {
  status_code : Z;
  body : option value
}.

(** The remote end, as the client sees it: a POST returns a response or
    raises (a timeout, a connection fault).  It is a function of the request,
    so a remote whose state does not change answers a request the same way
    every time. *)
Definition remote : Type := request -> result response.

Definition is_success (r : response) : bool :=
  ((200 <=? status_code r) && (status_code r <=? 299))%Z.

(** Modelled from the spec: httpx is a dependency, not part of the
    repository.  [response.raise_for_status()] raises [HTTPStatusError]
    when the HTTP status is not 2xx. *)
Definition raise_for_status (r : response) : result unit :=
  if is_success r then Ok tt else raise (HTTPStatusError (status_code r)).

(** [response.json()]. *)
Definition response_json (r : response) : result value :=
  match body r with
  | Some v => Ok v
  | None => raise ValueError
  end.

(** ** Module state *)

Definition GITHUB_GRAPHQL_URL : string := "https://api.github.com/graphql".

(** [os.getenv("GITHUB_TOKEN")], read once at import: a str or None. *)
Record environment : Type := { GITHUB_TOKEN : option string }.

Definition token_value (env : environment) : value :=
  match GITHUB_TOKEN env with
  | Some t => VStr t
  | None => VNone
  end.

(** The lines the client prints, one constructor per [print]. *)
Inductive diagnostic : Type :=
| GraphQLErrors (errors : value)    (* "GraphQL Errors: {result['errors']}" *)
| RequestTimedOut                   (* "Request timed out" *)
| HTTPErrorOccurred (code : Z)      (* "HTTP error occurred: {e.response.status_code}" *)
| UnexpectedError (e : exn).        (* "Unexpected error: {str(e)}" *)

(** ** make_github_request *)

Definition post_request (env : environment) (query variables : value) : request :=
  {| url := GITHUB_GRAPHQL_URL;
     headers := [("Authorization", "Bearer " ++ py_str (token_value env));
                 ("Content-Type", "application/json")];
     json := VDict [("query", query); ("variables", variables)];
     timeout := 30 |}.

(** The body of the [try]. *)
Definition attempt (env : environment) (api : remote) (query variables : value)
  : result (option value * list diagnostic) :=
  response <- api (post_request env query variables) ;;
  _ <- raise_for_status response ;;
  result <- response_json response ;;
  has_errors <- py_in "errors" result ;;
  if has_errors : bool then
    errors <- subscript result "errors" ;;
    Ok (None, [GraphQLErrors errors])
  else
    Ok (Some result, []).

(** The [try] with its three [except] clauses, in their order. *)
Definition make_github_request (env : environment) (api : remote) (query variables : value)
  : option value * list diagnostic :=
  match attempt env api query variables with
  | Ok r => r
  | Raise TimeoutException => (None, [RequestTimedOut])
  | Raise (HTTPStatusError code) => (None, [HTTPErrorOccurred code])
  | Raise e => (None, [UnexpectedError e])
  end.

(** Calling [make_github_request] with positional arguments: the function
    declares two parameters, and a call that does not bind exactly those
    raises TypeError before the body runs. *)
Definition call_make_github_request (env : environment) (api : remote) (args : list value)
  : result (option value * list diagnostic) :=
  match args with
  | [query; variables] => Ok (make_github_request env api query variables)
  | _ => raise TypeError
  end.

(** ** get_repository_info *)

(** The query document, as the triple-quoted literal spells it. *)
Definition repository_query : string := "
    query($owner: String!, $name: String!) {
      repository(owner: $owner, name: $name) {
        name
        description
        url
        stargazerCount
        forkCount
        issues(states: OPEN) {
          totalCount
        }
        pullRequests(states: OPEN) {
          totalCount
        }
        primaryLanguage {
          name
        }
        languages(first: 10) {
          nodes {
            name
          }
        }
        releases(last: 1) {
          nodes {
            tagName
            publishedAt
          }
        }
      }
    }
    ".

(** The text the f-string puts in each replacement field. *)
Record repository_summary : Type := {
  summary_name : string;
  summary_description : string;
  summary_url : string;
  summary_stars : string;
  summary_forks : string;
  summary_open_issues : string;
  summary_open_pull_requests : string;
  summary_primary_language : string;
  summary_languages : string;
  summary_latest_release : string
}.

Definition line (label text : string) : string := label ++ ": " ++ text ++ newline.

(** The literal parts of the f-string around the fields. *)
Definition format_repository_summary (s : repository_summary) : string :=
  newline
  ++ line "Repository" (summary_name s)
  ++ line "Description" (summary_description s)
  ++ line "URL" (summary_url s)
  ++ line "Stars" (summary_stars s)
  ++ line "Forks" (summary_forks s)
  ++ line "Open Issues" (summary_open_issues s)
  ++ line "Open Pull Requests" (summary_open_pull_requests s)
  ++ line "Primary Language" (summary_primary_language s)
  ++ line "Languages" (summary_languages s)
  ++ line "Latest Release" (summary_latest_release s).

(** [repo["releases"]["nodes"]], which the source evaluates three times. *)
Definition releases_nodes (repo : value) : result value :=
  releases <- subscript repo "releases" ;; subscript releases "nodes".

(** The conditional expression bound to [latest_release]. *)
Definition latest_release_of (repo : value) : result value :=
  nodes <- releases_nodes repo ;;
  if truthy nodes then
    nodes' <- releases_nodes repo ;;
    n <- py_len nodes' ;;
    if (n >? 0)%Z then nodes'' <- releases_nodes repo ;; subscript0 nodes''
    else Ok VNone
  else Ok VNone.

(** The f-string of the success path; its fields are evaluated left to
    right, the first exception ends it. *)
Definition render_repository (repo : value) (languages : list value) (latest_release : value)
  : result string :=
  name <- subscript repo "name" ;;
  description <- get_default repo "description" (VStr "No description") ;;
  url <- subscript repo "url" ;;
  stars <- subscript repo "stargazerCount" ;;
  forks <- subscript repo "forkCount" ;;
  issues <- subscript repo "issues" ;;
  open_issues <- subscript issues "totalCount" ;;
  pull_requests <- subscript repo "pullRequests" ;;
  open_pull_requests <- subscript pull_requests "totalCount" ;;
  primary <- subscript repo "primaryLanguage" ;;
  primary_language <-
    (if truthy primary then
       primary' <- subscript repo "primaryLanguage" ;; subscript primary' "name"
     else Ok (VStr "None")) ;;
  joined <- join ", " languages ;;
  release <-
    (if truthy latest_release then
       tag <- subscript latest_release "tagName" ;;
       tag_text <- as_str tag ;;
       published <- subscript latest_release "publishedAt" ;;
       published_text <- as_str published ;;
       Ok (tag_text ++ " (" ++ published_text ++ ")")
     else Ok "None") ;;
  Ok (format_repository_summary
        {| summary_name := py_str name;
           summary_description := py_str description;
           summary_url := py_str url;
           summary_stars := py_str stars;
           summary_forks := py_str forks;
           summary_open_issues := py_str open_issues;
           summary_open_pull_requests := py_str open_pull_requests;
           summary_primary_language := py_str primary_language;
           summary_languages := joined;
           summary_latest_release := release |}).

(** Everything after the client call returns. *)
Definition repository_reply (owner name : string) (data : option value) : result string :=
  match data with
  | None => Ok "Unable to fetch repository information."
  | Some data =>
      if negb (truthy data) then Ok "Unable to fetch repository information."
      else
        has_data <- py_in "data" data ;;
        if negb has_data then Ok "Unable to fetch repository information."
        else
          payload <- subscript data "data" ;;
          repo <- subscript payload "repository" ;;
          if negb (truthy repo) then Ok ("Repository " ++ owner ++ "/" ++ name ++ " not found.")
          else
            languages_field <- subscript repo "languages" ;;
            nodes <- subscript languages_field "nodes" ;;
            langs <- py_iter nodes ;;
            languages <- comprehension (fun lang => subscript lang "name") langs ;;
            latest_release <- latest_release_of repo ;;
            render_repository repo languages latest_release
  end.

Definition repository_arguments (owner name : string) : list value :=
  [VStr (strip (replace_char (ascii_of_N 10) " " repository_query));
   VDict [("owner", VStr owner); ("name", VStr name)]].

(** The tool: what it returns or raises, and what it printed on the way. *)
Definition get_repository_info (env : environment) (api : remote) (owner name : string)
  : result string * list diagnostic :=
  match call_make_github_request env api (repository_arguments owner name) with
  | Ok (data, printed) => (repository_reply owner name data, printed)
  | Raise e => (Raise e, [])
  end.

(** ** get_user_info *)

Definition user_query : string := "
    query($username: String!) {
      user(login: $username) {
        name
        login
        bio
        company
        location
        email
        websiteUrl
        repositories {
          totalCount
        }
        followers {
          totalCount
        }
        following {
          totalCount
        }
        contributionsCollection {
          totalCommitContributions
        }
      }
    }
    ".

Record user_summary : Type := {
  summary_user_name : string;
  summary_username : string;
  summary_bio : string;
  summary_company : string;
  summary_location : string;
  summary_email : string;
  summary_website : string;
  summary_public_repositories : string;
  summary_followers : string;
  summary_following : string;
  summary_total_contributions : string
}.

Definition format_user_summary (s : user_summary) : string :=
  newline
  ++ line "Name" (summary_user_name s)
  ++ line "Username" (summary_username s)
  ++ line "Bio" (summary_bio s)
  ++ line "Company" (summary_company s)
  ++ line "Location" (summary_location s)
  ++ line "Email" (summary_email s)
  ++ line "Website" (summary_website s)
  ++ line "Public Repositories" (summary_public_repositories s)
  ++ line "Followers" (summary_followers s)
  ++ line "Following" (summary_following s)
  ++ line "Total Contributions" (summary_total_contributions s).

Definition render_user (user : value) : result string :=
  name <- get_default user "name" (VStr "Not provided") ;;
  login <- subscript user "login" ;;
  bio <- get_default user "bio" (VStr "No bio") ;;
  company <- get_default user "company" (VStr "Not provided") ;;
  location <- get_default user "location" (VStr "Not provided") ;;
  email <- get_default user "email" (VStr "Not provided") ;;
  website <- get_default user "websiteUrl" (VStr "Not provided") ;;
  repositories <- subscript user "repositories" ;;
  public_repositories <- subscript repositories "totalCount" ;;
  followers <- subscript user "followers" ;;
  follower_count <- subscript followers "totalCount" ;;
  following <- subscript user "following" ;;
  following_count <- subscript following "totalCount" ;;
  contributions <- subscript user "contributionsCollection" ;;
  total_contributions <- subscript contributions "totalCommitContributions" ;;
  Ok (format_user_summary
        {| summary_user_name := py_str name;
           summary_username := py_str login;
           summary_bio := py_str bio;
           summary_company := py_str company;
           summary_location := py_str location;
           summary_email := py_str email;
           summary_website := py_str website;
           summary_public_repositories := py_str public_repositories;
           summary_followers := py_str follower_count;
           summary_following := py_str following_count;
           summary_total_contributions := py_str total_contributions |}).

Definition user_reply (username : string) (data : option value) : result string :=
  match data with
  | None => Ok "Unable to fetch user information."
  | Some data =>
      if negb (truthy data) then Ok "Unable to fetch user information."
      else
        has_data <- py_in "data" data ;;
        if negb has_data then Ok "Unable to fetch user information."
        else
          payload <- subscript data "data" ;;
          user <- subscript payload "user" ;;
          if negb (truthy user) then Ok ("User " ++ username ++ " not found.")
          else render_user user
  end.

(** The call passes [GITHUB_TOKEN] as a third positional argument. *)
Definition user_arguments (env : environment) (username : string) : list value :=
  [VStr (strip (replace_char (ascii_of_N 10) " " user_query));
   VDict [("username", VStr username)];
   token_value env].

Definition get_user_info (env : environment) (api : remote) (username : string)
  : result string * list diagnostic :=
  match call_make_github_request env api (user_arguments env username) with
  | Ok (data, printed) => (user_reply username data, printed)
  | Raise e => (Raise e, [])
  end.

(** ** Payloads that conform to the two queries

    The shape GitHub's schema gives the selected fields: which are strs,
    which are ints, which may be null.  [optional] also allows a field to be
    left out of the object altogether. *)

Module Schema.

Inductive optional (A : Type) : Type :=
| Absent
| Null
| Present (a : A).
Arguments Absent {A}.
Arguments Null {A}.
Arguments Present {A} a.

Record release : Type := { tagName : string; publishedAt : string }.

Record repository : Type := {
  name : string;
  description : optional string;
  url : string;
  stargazerCount : Z;
  forkCount : Z;
  issues : Z;
  pullRequests : Z;
  primaryLanguage : option string;
  languages : list string;
  releases : list release
}.

Record user : Type := {
  user_name : optional string;
  login : string;
  bio : optional string;
  company : optional string;
  location : optional string;
  email : optional string;
  websiteUrl : optional string;
  repositories : Z;
  followers : Z;
  following : Z;
  totalCommitContributions : Z
}.

Definition field (k : string) (o : optional string) : list (string * value) :=
  match o with
  | Absent => []
  | Null => [(k, VNone)]
  | Present s => [(k, VStr s)]
  end.

Definition total_count (n : Z) : value := VDict [("totalCount", VInt n)].

Definition encode_language (l : string) : value := VDict [("name", VStr l)].

Definition encode_release (r : release) : value :=
  VDict [("tagName", VStr (tagName r)); ("publishedAt", VStr (publishedAt r))].

Definition encode_repository (r : repository) : value :=
  VDict ((("name", VStr (name r)) :: field "description" (description r))
         ++ [("url", VStr (url r));
             ("stargazerCount", VInt (stargazerCount r));
             ("forkCount", VInt (forkCount r));
             ("issues", total_count (issues r));
             ("pullRequests", total_count (pullRequests r));
             ("primaryLanguage",
               match primaryLanguage r with
               | Some l => encode_language l
               | None => VNone
               end);
             ("languages", VDict [("nodes", VList (map encode_language (languages r)))]);
             ("releases", VDict [("nodes", VList (map encode_release (releases r)))])])%list.

Definition encode_user (u : user) : value :=
  VDict (field "name" (user_name u)
         ++ (("login", VStr (login u)) :: field "bio" (bio u))
         ++ field "company" (company u)
         ++ field "location" (location u)
         ++ field "email" (email u)
         ++ field "websiteUrl" (websiteUrl u)
         ++ [("repositories", total_count (repositories u));
             ("followers", total_count (followers u));
             ("following", total_count (following u));
             ("contributionsCollection",
               VDict [("totalCommitContributions", VInt (totalCommitContributions u))])])%list.

(** The response body [{"data": {k: v}}]. *)
Definition data_body (k : string) (v : value) : value :=
  VDict [("data", VDict [(k, v)])].

(** A dict with the binding of [k] taken out. *)
Definition without (k : string) (v : value) : value :=
  match v with
  | VDict d => VDict (filter (fun kv => negb (k =? fst kv)%string) d)
  | _ => v
  end.

(** The keys the success path of [get_repository_info] subscripts [repo]
    with. *)
Definition subscripted_keys : list string :=
  ["name"; "url"; "stargazerCount"; "forkCount"; "issues"; "pullRequests";
   "primaryLanguage"; "languages"; "releases"].

(** What [get_repository_info] puts in the fields for a conforming
    repository (lemma [repository_reply_displays]). *)
Definition displayed_repository (r : repository) : repository_summary :=
  {| summary_name := name r;
     summary_description :=
       match description r with
       | Absent => "No description"
       | Null => "None"
       | Present d => d
       end;
     summary_url := url r;
     summary_stars := py_int_str (stargazerCount r);
     summary_forks := py_int_str (forkCount r);
     summary_open_issues := py_int_str (issues r);
     summary_open_pull_requests := py_int_str (pullRequests r);
     summary_primary_language :=
       match primaryLanguage r with
       | Some l => l
       | None => "None"
       end;
     summary_languages := String.concat ", " (languages r);
     summary_latest_release :=
       match releases r with
       | [] => "None"
       | rel :: _ => tagName rel ++ " (" ++ publishedAt rel ++ ")"
       end |}.

End Schema.

(** The request each handler's call hands to the client. *)
Definition repository_request (env : environment) (owner name : string) : request :=
  post_request env (nth 0 (repository_arguments owner name) VNone)
                   (nth 1 (repository_arguments owner name) VNone).

(** The remote answers [req] with HTTP status [status] and a body that
    parses to [b] ([None]: a body that does not parse). *)
Definition answers (api : remote) (req : request) (status : Z) (b : option value) : Prop :=
  api req = Ok {| status_code := status; body := b |}.

(** A remote that answers every request alike. *)
Definition always (status : Z) (b : option value) : remote :=
  fun _ => Ok {| status_code := status; body := b |}.

Definition no_token : environment := {| GITHUB_TOKEN := None |}.

(** ** Sample exchanges *)

Definition hello_world : Schema.repository :=
  {| Schema.name := "Hello-World";
     Schema.description := Schema.Null;
     Schema.url := "https://github.com/octocat/Hello-World";
     Schema.stargazerCount := 42;
     Schema.forkCount := 7;
     Schema.issues := 3;
     Schema.pullRequests := 1;
     Schema.primaryLanguage := None;
     Schema.languages := ["C"; "Go"];
     Schema.releases :=
       [{| Schema.tagName := "v1.0"; Schema.publishedAt := "2024-01-01T00:00:00Z" |}] |}.

Definition hello_world_body : value :=
  Schema.data_body "repository" (Schema.encode_repository hello_world).

(** What GitHub answers for a repository it cannot resolve: a null
    [repository] next to an [errors] list. *)
Definition unresolved_body (repo : value) : value :=
  VDict [("data", VDict [("repository", repo)]);
         ("errors", VList [VDict [("type", VStr "NOT_FOUND");
                                  ("path", VList [VStr "repository"])]])].

(** Following the spec's words: the body has a non-empty top-level
    [errors] array. *)
Definition nonempty_errors_array (r : value) : bool :=
  match r with
  | VDict d =>
      match dict_get "errors" d with
      | Some (VList (_ :: _)) => true
      | _ => false
      end
  | _ => false
  end.

(** ** What the user summary shows *)

(** The text [d.get(k, placeholder)] leaves in a field: the placeholder
    for a missing key, None for a null, the str itself otherwise. *)
Definition get_text (placeholder : string) (o : Schema.optional string) : string :=
  match o with
  | Schema.Absent => placeholder
  | Schema.Null => "None"
  | Schema.Present text => text
  end.

(** What the f-string of [get_user_info] puts in the fields for a
    conforming user (theorem [user_reply_displays]). *)
Definition displayed_user (u : Schema.user) : user_summary :=
  {| summary_user_name := get_text "Not provided" (Schema.user_name u);
     summary_username := Schema.login u;
     summary_bio := get_text "No bio" (Schema.bio u);
     summary_company := get_text "Not provided" (Schema.company u);
     summary_location := get_text "Not provided" (Schema.location u);
     summary_email := get_text "Not provided" (Schema.email u);
     summary_website := get_text "Not provided" (Schema.websiteUrl u);
     summary_public_repositories := py_int_str (Schema.repositories u);
     summary_followers := py_int_str (Schema.followers u);
     summary_following := py_int_str (Schema.following u);
     summary_total_contributions := py_int_str (Schema.totalCommitContributions u) |}.

(** [d[k] = v] on a dict: the binding replaced in place, or added last. *)
Fixpoint set_binding (k : string) (v : value) (d : list (string * value))
  : list (string * value) :=
  match d with
  | [] => [(k, v)]
  | (k', x) :: rest =>
      if (k =? k')%string then (k, v) :: rest else (k', x) :: set_binding k v rest
  end.

(** A conforming repository whose release nodes are replaced by [nodes]. *)
Definition with_release_nodes (nodes : list value) (r : Schema.repository) : value :=
  match Schema.encode_repository r with
  | VDict d => VDict (set_binding "releases" (VDict [("nodes", VList nodes)]) d)
  | other => other
  end.

Definition without_releases (r : Schema.repository) : Schema.repository :=
  {| Schema.name := Schema.name r;
     Schema.description := Schema.description r;
     Schema.url := Schema.url r;
     Schema.stargazerCount := Schema.stargazerCount r;
     Schema.forkCount := Schema.forkCount r;
     Schema.issues := Schema.issues r;
     Schema.pullRequests := Schema.pullRequests r;
     Schema.primaryLanguage := Schema.primaryLanguage r;
     Schema.languages := Schema.languages r;
     Schema.releases := [] |}.

(** The exceptions that can leave [get_repository_info]. *)
Definition subscript_error (e : exn) : Prop := e = TypeError \/ e = KeyError.

Definition raises_only {A : Type} (P : exn -> Prop) (c : result A) : Prop :=
  forall e, c = Raise e -> P e.

(** octocat/Hello-World with its one release not yet published: the
    schema lets [publishedAt] be null. *)
Definition unpublished_release_body : value :=
  VDict [("data", VDict [("repository", VDict [
    ("name", VStr "Hello-World");
    ("description", VNone);
    ("url", VStr "https://github.com/octocat/Hello-World");
    ("stargazerCount", VInt 42);
    ("forkCount", VInt 7);
    ("issues", VDict [("totalCount", VInt 3)]);
    ("pullRequests", VDict [("totalCount", VInt 1)]);
    ("primaryLanguage", VNone);
    ("languages", VDict [("nodes", VList [VDict [("name", VStr "C")];
                                          VDict [("name", VStr "Go")]])]);
    ("releases", VDict [("nodes", VList [VDict [("tagName", VStr "v1.0");
                                                ("publishedAt", VNone)]])])])])].

(** * Properties *)

(** ** Strings *)

Lemma append_assoc (a b c : string) : (a ++ b) ++ c = a ++ b ++ c.
Proof.
  induction a as [| ch a IH]; simpl; [reflexivity | now rewrite IH].
Qed.

Lemma prefix_append (x t : string) : prefix x (x ++ t) = true.
Proof.
  induction x as [| ch x IH]; simpl.
  - now destruct t.
  - destruct (ascii_dec ch ch) as [_ | ne]; [exact IH | now elim ne].
Qed.

Lemma contains_prefix (x h : string) : prefix x h = true -> contains x h = true.
Proof.
  intros H. destruct h; cbn [contains]; rewrite H; reflexivity.
Qed.

Lemma contains_append (a x t : string) : contains x (a ++ x ++ t) = true.
Proof.
  induction a as [| ch a IH].
  - change (contains x (x ++ t) = true). apply contains_prefix, prefix_append.
  - change (contains x (String ch (a ++ x ++ t)) = true).
    cbn [contains]. rewrite IH. apply orb_true_r.
Qed.

(** The text of the summary for a conforming repository, spelled out. *)
Lemma displayed_repository_text (r : Schema.repository) :
  format_repository_summary (Schema.displayed_repository r)
  = ("
Repository: " ++ Schema.name r ++ "
Description: "
     ++ match Schema.description r with
        | Schema.Absent => "No description"
        | Schema.Null => "None"
        | Schema.Present d => d
        end ++ "
URL: " ++ Schema.url r ++ "
Stars: " ++ NilZero.string_of_int (Z.to_int (Schema.stargazerCount r)) ++ "
Forks: " ++ NilZero.string_of_int (Z.to_int (Schema.forkCount r)) ++ "
Open Issues: " ++ NilZero.string_of_int (Z.to_int (Schema.issues r)) ++ "
Open Pull Requests: " ++ NilZero.string_of_int (Z.to_int (Schema.pullRequests r)) ++ "
Primary Language: "
     ++ match Schema.primaryLanguage r with
        | Some l => l
        | None => "None"
        end ++ "
Languages: " ++ String.concat ", " (Schema.languages r) ++ "
Latest Release: "
     ++ match Schema.releases r with
        | [] => "None"
        | rel :: _ => Schema.tagName rel ++ " (" ++ Schema.publishedAt rel ++ ")"
        end ++ "
").
Proof.
  unfold format_repository_summary, line, newline, Schema.displayed_repository, py_int_str.
  cbn [summary_name summary_description summary_url summary_stars summary_forks
       summary_open_issues summary_open_pull_requests summary_primary_language
       summary_languages summary_latest_release].
  rewrite !append_assoc. reflexivity.
Qed.

(** ** The runtime on conforming data *)

Lemma comprehension_names (ls : list string) :
  comprehension (fun lang => subscript lang "name") (map Schema.encode_language ls)
  = Ok (map VStr ls).
Proof.
  induction ls as [| l ls IH]; simpl; [reflexivity |].
  rewrite IH. reflexivity.
Qed.

Lemma join_strs (sep : string) (ls : list string) :
  join sep (map VStr ls) = Ok (String.concat sep ls).
Proof.
  unfold join.
  assert (H : comprehension as_str (map VStr ls) = Ok ls).
  { induction ls as [| l ls IH]; simpl; [reflexivity | now rewrite IH]. }
  rewrite H. reflexivity.
Qed.

(** ** The client *)

Lemma make_github_request_raised env api q v e :
  api (post_request env q v) = Raise e ->
  fst (make_github_request env api q v) = None.
Proof.
  intros H. unfold make_github_request, attempt. rewrite H. simpl.
  destruct e; reflexivity.
Qed.

Lemma make_github_request_answered env api q v status b :
  answers api (post_request env q v) status b ->
  fst (make_github_request env api q v) =
    match b with
    | Some r =>
        if ((200 <=? status) && (status <=? 299))%Z
        then match py_in "errors" r with Ok false => Some r | _ => None end
        else None
    | None => None
    end.
Proof.
  intros H. unfold make_github_request, attempt. rewrite H.
  unfold raise_for_status, is_success, response_json. simpl.
  destruct ((200 <=? status) && (status <=? 299))%Z; simpl.
  - destruct b as [r |]; simpl; [| reflexivity].
    destruct (py_in "errors" r) as [[|] | e]; simpl.
    + destruct (subscript r "errors") as [errors | e]; simpl; [reflexivity | destruct e; reflexivity].
    + reflexivity.
    + destruct e; reflexivity.
  - destruct b; reflexivity.
Qed.

Lemma get_repository_info_reply env api owner name :
  fst (get_repository_info env api owner name)
  = repository_reply owner name
      (fst (make_github_request env api (nth 0 (repository_arguments owner name) VNone)
                                        (nth 1 (repository_arguments owner name) VNone))).
Proof.
  unfold get_repository_info, call_make_github_request, repository_arguments.
  cbn [nth]. 
  destruct (make_github_request _ _ _ _). reflexivity.
Qed.

Lemma repository_reply_displays owner name (r : Schema.repository) :
  repository_reply owner name (Some (Schema.data_body "repository" (Schema.encode_repository r)))
  = Ok (format_repository_summary (Schema.displayed_repository r)).
Proof.
  destruct r as [nm desc u stars forks iss prs prim langs rels].
  destruct desc, prim, rels as [| rel rels].
  all: cbn.
  all: rewrite comprehension_names; cbn; rewrite join_strs; reflexivity.
Qed.

Lemma success_test (status : Z) :
  200 <= status <= 299 -> ((200 <=? status) && (status <=? 299))%Z = true.
Proof.
  intros [lo hi]. apply andb_true_intro. split; apply Z.leb_le; assumption.
Qed.

Lemma make_github_request_success env api q v status r :
  answers api (post_request env q v) status (Some r) ->
  200 <= status <= 299 ->
  py_in "errors" r = Ok false ->
  fst (make_github_request env api q v) = Some r.
Proof.
  intros Hans Hok Herr.
  rewrite (make_github_request_answered _ _ _ _ _ _ Hans), (success_test _ Hok), Herr.
  reflexivity.
Qed.

(** ** The repository handler *)

Lemma repository_reply_unable owner name (data : option value) :
  match data with
  | None => True
  | Some r => truthy r = false \/ py_in "data" r = Ok false
  end ->
  repository_reply owner name data = Ok "Unable to fetch repository information.".
Proof.
  destruct data as [r |]; [| reflexivity].
  unfold repository_reply. intros [Hfalsy | Hin].
  - rewrite Hfalsy. reflexivity.
  - destruct (truthy r); [| reflexivity]. rewrite Hin. reflexivity.
Qed.

(** Every way the client call can fail, and every body in which
    ["data" in body] is false, gives the one generic message. *)
Lemma get_repository_info_unable env api owner name :
  (exists e, api (repository_request env owner name) = Raise e)
  \/ (exists status b, answers api (repository_request env owner name) status b /\
        (~ 200 <= status <= 299
         \/ b = None
         \/ exists r, b = Some r /\
              (py_in "errors" r <> Ok false \/ truthy r = false \/ py_in "data" r = Ok false))) ->
  fst (get_repository_info env api owner name) = Ok "Unable to fetch repository information.".
Proof.
  rewrite get_repository_info_reply. unfold repository_request.
  intros [[e Hraise] | (status & b & Hans & Hcase)].
  - rewrite (make_github_request_raised _ _ _ _ _ Hraise). reflexivity.
  - rewrite (make_github_request_answered _ _ _ _ _ _ Hans).
    destruct Hcase as [Hstatus | [Hbody | (r & Hbody & Hr)]].
    + destruct ((200 <=? status) && (status <=? 299))%Z eqn:E.
      * apply andb_prop in E. destruct E as [lo hi].
        apply Z.leb_le in lo, hi. elim Hstatus. split; assumption.
      * destruct b; reflexivity.
    + rewrite Hbody. reflexivity.
    + rewrite Hbody.
      destruct ((200 <=? status) && (status <=? 299))%Z; [| reflexivity].
      destruct (py_in "errors" r) as [[|] | e] eqn:E; try reflexivity.
      apply repository_reply_unable.
      destruct Hr as [Herr | Hr]; [now elim Herr | exact Hr].
Qed.

Lemma get_repository_info_not_found env api owner name status d payload repo :
  answers api (repository_request env owner name) status (Some (VDict d)) ->
  200 <= status <= 299 ->
  dict_get "errors" d = None ->
  dict_get "data" d = Some payload ->
  subscript payload "repository" = Ok repo ->
  truthy repo = false ->
  fst (get_repository_info env api owner name)
  = Ok ("Repository " ++ owner ++ "/" ++ name ++ " not found.").
Proof.
  intros Hans Hok Herr Hdata Hrepo Hfalsy.
  rewrite get_repository_info_reply.
  unfold repository_request in Hans.
  rewrite (make_github_request_success _ _ _ _ _ _ Hans Hok).
  - unfold repository_reply.
    destruct d as [| kv d']; [discriminate Hdata |].
    cbn [truthy negb]. cbn [py_in bind]. rewrite Hdata. cbn [negb].
    cbn [subscript bind]. rewrite Hdata. cbn [bind]. rewrite Hrepo. cbn [bind].
    rewrite Hfalsy. reflexivity.
  - cbn [py_in]. rewrite Herr. reflexivity.
Qed.


Lemma always_answers status b req : answers (always status b) req status b.
Proof. reflexivity. Qed.

(** ** Edges of the success path *)

(** A release without a publish timestamp: [str + None] raises. *)
Example null_publishedAt_raises :
  let release := VDict [("tagName", VStr "v1.0"); ("publishedAt", VNone)] in
  let repo :=
    VDict [("name", VStr "Hello-World");
           ("url", VStr "https://github.com/octocat/Hello-World");
           ("stargazerCount", VInt 42); ("forkCount", VInt 7);
           ("issues", Schema.total_count 3); ("pullRequests", Schema.total_count 1);
           ("primaryLanguage", VNone);
           ("languages", VDict [("nodes", VList [])]);
           ("releases", VDict [("nodes", VList [release])])] in
  repository_reply "octocat" "Hello-World" (Some (Schema.data_body "repository" repo))
  = Raise TypeError.
Proof.
  reflexivity.
Qed.

(** A body that is not an object but passes both [in] tests: the list
    [["data"]] is then subscripted with a str. *)
Example list_body_raises :
  get_repository_info no_token (always 200 (Some (VList [VStr "data"]))) "octocat" "Hello-World"
  = (Raise TypeError, []).
Proof.
  reflexivity.
Qed.

(** The rendering [get_user_info] would reach if its call went through:
    a null [bio] prints as None, an absent one as the placeholder. *)
Example user_reply_null_bio :
  let octocat :=
    {| Schema.user_name := Schema.Present "The Octocat";
       Schema.login := "octocat";
       Schema.bio := Schema.Null;
       Schema.company := Schema.Absent;
       Schema.location := Schema.Present "San Francisco";
       Schema.email := Schema.Null;
       Schema.websiteUrl := Schema.Present "https://github.blog";
       Schema.repositories := 8;
       Schema.followers := 100;
       Schema.following := 9;
       Schema.totalCommitContributions := 0 |} in
  user_reply "octocat" (Some (Schema.data_body "user" (Schema.encode_user octocat)))
  = Ok (format_user_summary
          {| summary_user_name := "The Octocat";
             summary_username := "octocat";
             summary_bio := "None";
             summary_company := "Not provided";
             summary_location := "San Francisco";
             summary_email := "None";
             summary_website := "https://github.blog";
             summary_public_repositories := "8";
             summary_followers := "100";
             summary_following := "9";
             summary_total_contributions := "0" |}).
Proof.
  reflexivity.
Qed.

(** ** The claims *)

(** C1 (the code departs from the claim).  The claim wants every tool call
    to return a str.  [get_user_info] never does: whatever the token, the
    remote and the username, its call of [make_github_request] with three
    positional arguments raises TypeError, outside any [try], before a
    request is sent or a line printed. *)
Theorem get_user_info_raises_TypeError (env : environment) (api : remote) (username : string) :
  get_user_info env api username = (Raise TypeError, []).
Proof.
  reflexivity.
Qed.

(** C2 (the code departs from the claim).  For the repository
    octocat/Hello-World with a null [description], the summary
    [get_repository_info] returns has the text None in its Description
    field, where the claim wants the placeholder No description. *)
Theorem null_description_renders_None :
  Schema.description hello_world = Schema.Null /\
  fst (get_repository_info no_token (always 200 (Some hello_world_body)) "octocat" "Hello-World")
  = Ok (format_repository_summary
          {| summary_name := "Hello-World";
             summary_description := "None";
             summary_url := "https://github.com/octocat/Hello-World";
             summary_stars := "42";
             summary_forks := "7";
             summary_open_issues := "3";
             summary_open_pull_requests := "1";
             summary_primary_language := "None";
             summary_languages := "C, Go";
             summary_latest_release := "v1.0 (2024-01-01T00:00:00Z)" |}).
Proof.
  split; reflexivity.
Qed.

(** C3, as the claim states it, fails: a 200 response whose body carries an
    empty [errors] array has no non-empty [errors] array, yet the client
    does not return the body. *)
Lemma empty_errors_array_returns_None :
  let r := VDict [("data", VDict [("repository", VNone)]); ("errors", VList [])] in
  ~ (fst (make_github_request no_token (always 200 (Some r)) (VStr "query") (VDict []))
       = Some r
     <-> 200 <= 200 <= 299 /\ nonempty_errors_array r = false).
Proof.
  intros r [_ H].
  assert (E : fst (make_github_request no_token (always 200 (Some r)) (VStr "query") (VDict []))
              = Some r).
  { apply H. split; [lia | reflexivity]. }
  discriminate E.
Qed.

(** C3, amended.  When the remote answers, [make_github_request] returns
    the parsed body exactly when the status is 2xx, the body parses and
    ["errors" in body] is false; for a body that is an object this means it
    has no top-level [errors] key at all.  An object with an [errors] key,
    whatever its value, gives None, and with it the [data] is dropped. *)
Theorem make_github_request_returns_body_iff
    (env : environment) (api : remote) (query variables : value)
    (status : Z) (b : option value) :
  answers api (post_request env query variables) status b ->
  (forall r, fst (make_github_request env api query variables) = Some r
             <-> 200 <= status <= 299 /\ b = Some r /\ py_in "errors" r = Ok false)
  /\ (forall d, py_in "errors" (VDict d) = Ok false <-> dict_get "errors" d = None)
  /\ (forall d errors, b = Some (VDict d) -> dict_get "errors" d = Some errors ->
        fst (make_github_request env api query variables) = None).
Proof.
  intros Hans. rewrite (make_github_request_answered _ _ _ _ _ _ Hans).
  split; [| split].
  - intros r. split.
    + destruct b as [r' |]; [| discriminate].
      destruct ((200 <=? status) && (status <=? 299))%Z eqn:E; [| discriminate].
      apply andb_prop in E. destruct E as [lo hi]. apply Z.leb_le in lo, hi.
      destruct (py_in "errors" r') as [[|] | e] eqn:Herr; try discriminate.
      intros [= ->]. repeat split; assumption.
    + intros (Hok & -> & Herr). rewrite (success_test _ Hok), Herr. reflexivity.
  - intros d. cbn [py_in]. destruct (dict_get "errors" d); split; congruence.
  - intros d errors -> Herr. cbn [py_in]. rewrite Herr.
    destruct ((200 <=? status) && (status <=? 299))%Z; reflexivity.
Qed.

Lemma make_github_request_returns_body_iff_witness :
  answers (always 200 (Some hello_world_body)) (post_request no_token (VStr "query") (VDict []))
          200 (Some hello_world_body)
  /\ fst (make_github_request no_token (always 200 (Some hello_world_body))
            (VStr "query") (VDict [])) = Some hello_world_body.
Proof.
  split; [reflexivity |].
  apply (make_github_request_returns_body_iff no_token (always 200 (Some hello_world_body))
           (VStr "query") (VDict []) 200 (Some hello_world_body)).
  - reflexivity.
  - split; [lia | split; reflexivity].
Defined.

(** C4 (the code departs from the claim).  When the POST times out,
    [get_repository_info] returns its generic message, as claimed (lemma
    [get_repository_info_unable] has the other failures), but
    [get_user_info] raises TypeError where the claim wants
    Unable to fetch user information. *)
Theorem get_user_info_on_timeout :
  let timing_out : remote := fun _ => Raise TimeoutException in
  get_repository_info no_token timing_out "octocat" "Hello-World"
    = (Ok "Unable to fetch repository information.", [RequestTimedOut])
  /\ fst (get_user_info no_token timing_out "octocat") = Raise TypeError
  /\ user_reply "octocat" None = Ok "Unable to fetch user information.".
Proof.
  repeat split.
Qed.

(** C5, as the claim states it, fails: GitHub's answer for an unknown
    repository has a null [data.repository] and an [errors] list, and for it
    the handler returns the generic message, which does not name
    octocat/nope. *)
Lemma null_repository_with_errors_is_not_named :
  let r := unresolved_body VNone in
  (payload <- subscript r "data" ;; subscript payload "repository") = Ok VNone
  /\ ~ (exists message,
          fst (get_repository_info no_token (always 200 (Some r)) "octocat" "nope") = Ok message
          /\ contains "octocat/nope" message = true).
Proof.
  split; [reflexivity |].
  intros (message & Hreply & Hnamed).
  injection Hreply as <-. discriminate Hnamed.
Qed.

(** C5, amended.  When the status is 2xx and the body is an object with no
    top-level [errors] key whose [data.repository] is null,
    [get_repository_info] returns Repository owner/name not found., in
    which owner/name stands verbatim. *)
Theorem null_repository_is_reported_not_found
    (env : environment) (api : remote) (owner name : string)
    (status : Z) (d : list (string * value)) (payload : value) :
  answers api (repository_request env owner name) status (Some (VDict d)) ->
  200 <= status <= 299 ->
  dict_get "errors" d = None ->
  dict_get "data" d = Some payload ->
  subscript payload "repository" = Ok VNone ->
  fst (get_repository_info env api owner name)
    = Ok ("Repository " ++ owner ++ "/" ++ name ++ " not found.")
  /\ contains (owner ++ "/" ++ name) ("Repository " ++ owner ++ "/" ++ name ++ " not found.")
     = true.
Proof.
  intros Hans Hok Herr Hdata Hrepo. split.
  - apply (get_repository_info_not_found _ _ _ _ _ _ _ _ Hans Hok Herr Hdata Hrepo).
    reflexivity.
  - replace (owner ++ "/" ++ name ++ " not found.")
      with ((owner ++ "/" ++ name) ++ " not found.")
      by (rewrite !append_assoc; reflexivity).
    apply contains_append.
Qed.

Lemma null_repository_is_reported_not_found_witness :
  fst (get_repository_info no_token
         (always 200 (Some (Schema.data_body "repository" VNone))) "octocat" "nope")
    = Ok "Repository octocat/nope not found."
  /\ contains "octocat/nope" "Repository octocat/nope not found." = true.
Proof.
  apply (null_repository_is_reported_not_found no_token
           (always 200 (Some (Schema.data_body "repository" VNone))) "octocat" "nope"
           200 [("data", VDict [("repository", VNone)])] (VDict [("repository", VNone)])).
  - reflexivity.
  - lia.
  - reflexivity.
  - reflexivity.
  - reflexivity.
Defined.

(** C6 (the code departs from the claim).  With the one release
    v1.0 published at 2024-01-01T00:00:00Z the handler returns the summary
    whose last line is Latest Release: v1.0 (2024-01-01T00:00:00Z), as
    claimed.  With the same release present but its [publishedAt] null, no
    release line is rendered at all: the concatenation of the tag text with
    None raises TypeError, and the exception leaves the handler. *)
Theorem one_release_without_publish_date_raises :
  fst (get_repository_info no_token (always 200 (Some hello_world_body))
         "octocat" "Hello-World")
    = Ok "
Repository: Hello-World
Description: None
URL: https://github.com/octocat/Hello-World
Stars: 42
Forks: 7
Open Issues: 3
Open Pull Requests: 1
Primary Language: None
Languages: C, Go
Latest Release: v1.0 (2024-01-01T00:00:00Z)
"
  /\ (payload <- subscript unpublished_release_body "data" ;;
      repo <- subscript payload "repository" ;;
      releases_nodes repo)
     = Ok (VList [VDict [("tagName", VStr "v1.0"); ("publishedAt", VNone)]])
  /\ get_repository_info no_token (always 200 (Some unpublished_release_body))
       "octocat" "Hello-World"
     = (Raise TypeError, []).
Proof.
  split; [| split]; reflexivity.
Qed.



(** C8.  Each handler is a function of its arguments, the token and the
    remote's answer to the one request it sends: two remotes that answer
    that request alike give the same outcome, printed lines included.
    [get_user_info] sends no request, so its outcome is the same against
    any two remotes. *)
Theorem handlers_are_deterministic
    (env : environment) (api api' : remote) (owner name username : string) :
  api (repository_request env owner name) = api' (repository_request env owner name) ->
  get_repository_info env api owner name = get_repository_info env api' owner name
  /\ get_user_info env api username = get_user_info env api' username.
Proof.
  intros Hsame. split; [| reflexivity].
  unfold get_repository_info, call_make_github_request, repository_arguments,
    make_github_request, attempt.
  unfold repository_request, repository_arguments in Hsame. cbn [nth] in Hsame.
  rewrite Hsame. reflexivity.
Qed.

Lemma handlers_are_deterministic_witness :
  get_repository_info no_token (always 200 (Some hello_world_body)) "octocat" "Hello-World"
  = get_repository_info no_token
      (fun req => if (url req =? GITHUB_GRAPHQL_URL)%string
                  then Ok {| status_code := 200; body := Some hello_world_body |}
                  else Raise ConnectError)
      "octocat" "Hello-World"
  /\ get_user_info no_token (always 200 (Some hello_world_body)) "octocat"
     = get_user_info no_token
         (fun req => if (url req =? GITHUB_GRAPHQL_URL)%string
                     then Ok {| status_code := 200; body := Some hello_world_body |}
                     else Raise ConnectError)
         "octocat".
Proof.
  apply (handlers_are_deterministic no_token (always 200 (Some hello_world_body))
           (fun req => if (url req =? GITHUB_GRAPHQL_URL)%string
                       then Ok {| status_code := 200; body := Some hello_world_body |}
                       else Raise ConnectError)
           "octocat" "Hello-World" "octocat").
  reflexivity.
Defined.

(** C9, as the claim states it, fails: with an [errors] key next to it, an
    empty object for [data.repository] is answered with the generic
    message, not with the not-found message. *)
Lemma empty_repository_with_errors_is_not_reported :
  let r := unresolved_body (VDict []) in
  (payload <- subscript r "data" ;; subscript payload "repository") = Ok (VDict [])
  /\ truthy (VDict []) = false
  /\ fst (get_repository_info no_token (always 200 (Some r)) "octocat" "nope")
     <> Ok "Repository octocat/nope not found.".
Proof.
  repeat split. discriminate.
Qed.

(** C9, amended.  When the status is 2xx and the body is an object with no
    top-level [errors] key, any falsy [data.repository] (null, an empty
    object, an empty list, an empty str, 0, false) makes
    [get_repository_info] return the not-found message naming owner/name;
    no summary is rendered. *)
Theorem falsy_repository_is_reported_not_found
    (env : environment) (api : remote) (owner name : string)
    (status : Z) (d : list (string * value)) (payload repo : value) :
  answers api (repository_request env owner name) status (Some (VDict d)) ->
  200 <= status <= 299 ->
  dict_get "errors" d = None ->
  dict_get "data" d = Some payload ->
  subscript payload "repository" = Ok repo ->
  truthy repo = false ->
  fst (get_repository_info env api owner name)
  = Ok ("Repository " ++ owner ++ "/" ++ name ++ " not found.").
Proof.
  intros Hans Hok Herr Hdata Hrepo Hfalsy.
  exact (get_repository_info_not_found _ _ _ _ _ _ _ _ Hans Hok Herr Hdata Hrepo Hfalsy).
Qed.

Lemma falsy_repository_is_reported_not_found_witness :
  truthy (VDict []) = false
  /\ fst (get_repository_info no_token
            (always 200 (Some (Schema.data_body "repository" (VDict [])))) "octocat" "nope")
     = Ok "Repository octocat/nope not found.".
Proof.
  split; [reflexivity |].
  apply (falsy_repository_is_reported_not_found no_token
           (always 200 (Some (Schema.data_body "repository" (VDict [])))) "octocat" "nope"
           200 [("data", VDict [("repository", VDict [])])] (VDict [("repository", VDict [])])
           (VDict [])).
  - reflexivity.
  - lia.
  - reflexivity.
  - reflexivity.
  - reflexivity.
  - reflexivity.
Defined.

(** C10.  The success path subscripts without checking.  Take any
    conforming repository and leave out any one of the keys the handler
    subscripts it with: the object is still truthy, the body still has its
    [data] key, and [get_repository_info] raises KeyError.  And for the body
    whose [data] is null it raises TypeError. *)
Theorem get_repository_info_raises_on_incomplete_payload
    (env : environment) (owner name : string) (r : Schema.repository) :
  Forall
    (fun k =>
       let repo := Schema.without k (Schema.encode_repository r) in
       let b := Schema.data_body "repository" repo in
       truthy repo = true
       /\ py_in "data" b = Ok true
       /\ fst (get_repository_info env (always 200 (Some b)) owner name) = Raise KeyError)
    Schema.subscripted_keys
  /\ (py_in "data" (VDict [("data", VNone)]) = Ok true
      /\ fst (get_repository_info env (always 200 (Some (VDict [("data", VNone)]))) owner name)
         = Raise TypeError).
Proof.
  split; [| split; reflexivity].
  destruct r as [nm desc u stars forks iss prs prim langs rels].
  unfold Schema.subscripted_keys.
  repeat apply Forall_cons; try apply Forall_nil.
  all: destruct desc, prim, rels as [| rel rels].
  all: repeat split.
  all: rewrite get_repository_info_reply.
  all: cbn.
  all: rewrite ?comprehension_names; cbn; rewrite ?join_strs; reflexivity.
Qed.

(** * Further properties of the client and the handlers *)

(** ** The client's outcome, case by case *)

Lemma make_github_request_success_printed env api q v status r :
  answers api (post_request env q v) status (Some r) ->
  200 <= status <= 299 ->
  py_in "errors" r = Ok false ->
  make_github_request env api q v = (Some r, []).
Proof.
  intros Hans Hok Herr. unfold make_github_request, attempt. rewrite Hans.
  unfold raise_for_status, is_success, response_json. cbn [status_code body bind].
  rewrite (success_test _ Hok). cbn [bind]. rewrite Herr. reflexivity.
Qed.

Lemma make_github_request_cases env api q v :
  (exists r, make_github_request env api q v = (Some r, []))
  \/ (exists printed, make_github_request env api q v = (None, [printed])).
Proof.
  unfold make_github_request, attempt.
  destruct (api (post_request env q v)) as [resp | e]; cbn [bind].
  - unfold raise_for_status, response_json.
    destruct (is_success resp); cbn [bind].
    + destruct (body resp) as [r |]; cbn [bind].
      * destruct (py_in "errors" r) as [[|] | e]; cbn [bind].
        -- destruct (subscript r "errors") as [errors | e]; cbn [bind].
           ++ right. eexists. reflexivity.
           ++ right. destruct e; eexists; reflexivity.
        -- left. eexists. reflexivity.
        -- right. destruct e; eexists; reflexivity.
      * right. eexists. reflexivity.
    + right. eexists. reflexivity.
  - right. destruct e; eexists; reflexivity.
Qed.

(** X2.  [make_github_request] prints one line exactly when it returns
    None, and nothing when it returns a body. *)
Theorem client_prints_exactly_when_it_fails
    (env : environment) (api : remote) (query variables : value) :
  (fst (make_github_request env api query variables) = None
   <-> exists printed, snd (make_github_request env api query variables) = [printed])
  /\ (forall r, fst (make_github_request env api query variables) = Some r ->
      snd (make_github_request env api query variables) = []).
Proof.
  destruct (make_github_request_cases env api query variables) as [[r ->] | [printed ->]];
    cbn [fst snd].
  - split.
    + split; [discriminate | intros [printed [=]]].
    + reflexivity.
  - split.
    + split; [intros _; exists printed; reflexivity | reflexivity].
    + discriminate.
Qed.

(** X3.  The HTTP status is looked at before the body: a response whose
    status is not 2xx gives None and the one line with that status code,
    whatever its body holds (data, errors, nothing that parses). *)
Theorem http_status_is_checked_first
    (env : environment) (api : remote) (query variables : value)
    (status : Z) (b : option value) :
  answers api (post_request env query variables) status b ->
  ~ 200 <= status <= 299 ->
  make_github_request env api query variables = (None, [HTTPErrorOccurred status]).
Proof.
  intros Hans Hstatus. unfold make_github_request, attempt. rewrite Hans.
  unfold raise_for_status, is_success. cbn [status_code bind].
  destruct ((200 <=? status) && (status <=? 299))%Z eqn:E; [| reflexivity].
  apply andb_prop in E. destruct E as [lo hi]. apply Z.leb_le in lo, hi.
  elim Hstatus. split; assumption.
Qed.

Lemma http_status_is_checked_first_witness :
  make_github_request no_token (always 404 (Some hello_world_body)) (VStr "query") (VDict [])
  = (None, [HTTPErrorOccurred 404]).
Proof.
  apply (http_status_is_checked_first no_token (always 404 (Some hello_world_body))
           (VStr "query") (VDict []) 404 (Some hello_world_body)).
  - reflexivity.
  - lia.
Defined.

(** X4.  A 2xx body that is an object with an [errors] key gives None, and
    the one line printed carries the value of that key as it is; nothing of
    the body is returned. *)
Theorem graphql_errors_are_printed
    (env : environment) (api : remote) (query variables : value)
    (status : Z) (d : list (string * value)) (errors : value) :
  answers api (post_request env query variables) status (Some (VDict d)) ->
  200 <= status <= 299 ->
  dict_get "errors" d = Some errors ->
  make_github_request env api query variables = (None, [GraphQLErrors errors]).
Proof.
  intros Hans Hok Herr. unfold make_github_request, attempt. rewrite Hans.
  unfold raise_for_status, is_success, response_json. cbn [status_code body bind].
  rewrite (success_test _ Hok). cbn [bind py_in subscript]. rewrite Herr. reflexivity.
Qed.

Lemma graphql_errors_are_printed_witness :
  make_github_request no_token (always 200 (Some (unresolved_body VNone)))
    (VStr "query") (VDict [])
  = (None, [GraphQLErrors (VList [VDict [("type", VStr "NOT_FOUND");
                                         ("path", VList [VStr "repository"])]])]).
Proof.
  apply (graphql_errors_are_printed no_token (always 200 (Some (unresolved_body VNone)))
           (VStr "query") (VDict []) 200
           [("data", VDict [("repository", VNone)]);
            ("errors", VList [VDict [("type", VStr "NOT_FOUND");
                                     ("path", VList [VStr "repository"])]])]).
  - reflexivity.
  - lia.
  - reflexivity.
Defined.

(** X5.  A 2xx body that parses to something other than an object is never
    reported as GraphQL errors: it is returned as it is when
    ["errors" in body] is false (a list without the element, a str without
    the substring), and otherwise (null, a bool, a number, a list or str
    that has it) the TypeError it provokes is caught and printed as an
    unexpected error.  A body that does not parse is printed as a
    ValueError. *)
Theorem non_object_body
    (env : environment) (api : remote) (query variables : value)
    (status : Z) (b : option value) :
  answers api (post_request env query variables) status b ->
  200 <= status <= 299 ->
  (forall d, b <> Some (VDict d)) ->
  make_github_request env api query variables
  = match b with
    | None => (None, [UnexpectedError ValueError])
    | Some r =>
        match py_in "errors" r with
        | Ok false => (Some r, [])
        | _ => (None, [UnexpectedError TypeError])
        end
    end.
Proof.
  intros Hans Hok Hshape. unfold make_github_request, attempt. rewrite Hans.
  unfold raise_for_status, is_success, response_json. cbn [status_code body bind].
  rewrite (success_test _ Hok). cbn [bind].
  destruct b as [r |]; [| reflexivity].
  destruct r as [| bl | n | f | s | l | d]; cbn [py_in bind subscript]; try reflexivity.
  - destruct (contains "errors" s); reflexivity.
  - destruct (existsb (eq_str "errors") l); reflexivity.
  - elim (Hshape d). reflexivity.
Qed.

Lemma non_object_body_witness :
  make_github_request no_token (always 200 (Some (VList [VStr "errors"])))
    (VStr "query") (VDict [])
  = (None, [UnexpectedError TypeError])
  /\ make_github_request no_token (always 200 (Some (VInt 7))) (VStr "query") (VDict [])
     = (None, [UnexpectedError TypeError])
  /\ make_github_request no_token (always 200 (Some (VList [VStr "data"])))
       (VStr "query") (VDict [])
     = (Some (VList [VStr "data"]), []).
Proof.
  split; [| split].
  - apply (non_object_body no_token (always 200 (Some (VList [VStr "errors"])))
             (VStr "query") (VDict []) 200 (Some (VList [VStr "errors"])));
      [reflexivity | lia | discriminate].
  - apply (non_object_body no_token (always 200 (Some (VInt 7)))
             (VStr "query") (VDict []) 200 (Some (VInt 7)));
      [reflexivity | lia | discriminate].
  - apply (non_object_body no_token (always 200 (Some (VList [VStr "data"])))
             (VStr "query") (VDict []) 200 (Some (VList [VStr "data"])));
      [reflexivity | lia | discriminate].
Defined.

(** ** Which exceptions leave the repository handler *)

Lemma raises_only_Ok {A : Type} (P : exn -> Prop) (a : A) : raises_only P (Ok a).
Proof. intros e H. discriminate H. Qed.

Lemma raises_only_bind {A B : Type} (P : exn -> Prop) (c : result A) (k : A -> result B) :
  raises_only P c -> (forall a, c = Ok a -> raises_only P (k a)) -> raises_only P (bind c k).
Proof.
  intros Hc Hk e. destruct c as [a | e']; cbn [bind].
  - apply (Hk a eq_refl).
  - intros [= <-]. apply Hc. reflexivity.
Qed.

Lemma raises_only_if {A : Type} (P : exn -> Prop) (b : bool) (c c' : result A) :
  raises_only P c -> raises_only P c' -> raises_only P (if b then c else c').
Proof. destruct b; auto. Qed.

Lemma subscript_raises v k : raises_only subscript_error (subscript v k).
Proof.
  intros e. unfold subscript_error.
  destruct v as [| b | n | f | s | l | d]; cbn [subscript]; try (intros [= <-]; auto).
  destruct (dict_get k d); [discriminate | intros [= <-]; auto].
Qed.

Lemma py_in_raises s v : raises_only subscript_error (py_in s v).
Proof.
  intros e. unfold subscript_error.
  destruct v; cbn [py_in]; try discriminate; intros [= <-]; auto.
Qed.

Lemma py_iter_raises v : raises_only subscript_error (py_iter v).
Proof.
  intros e. unfold subscript_error.
  destruct v; cbn [py_iter]; try discriminate; intros [= <-]; auto.
Qed.

Lemma as_str_raises v : raises_only subscript_error (as_str v).
Proof.
  intros e. unfold subscript_error.
  destruct v; cbn [as_str]; try discriminate; intros [= <-]; auto.
Qed.

Lemma comprehension_raises {A B : Type} (P : exn -> Prop) (f : A -> result B) (l : list A) :
  (forall x, raises_only P (f x)) -> raises_only P (comprehension f l).
Proof.
  intros Hf. induction l as [| x l IH]; cbn [comprehension].
  - apply raises_only_Ok.
  - apply raises_only_bind; [apply Hf | intros y _].
    apply raises_only_bind; [exact IH | intros ys _]. apply raises_only_Ok.
Qed.

Lemma join_raises sep l : raises_only subscript_error (join sep l).
Proof.
  unfold join. apply raises_only_bind; [| intros; apply raises_only_Ok].
  apply comprehension_raises. apply as_str_raises.
Qed.

Lemma releases_nodes_raises repo : raises_only subscript_error (releases_nodes repo).
Proof.
  unfold releases_nodes.
  apply raises_only_bind; [apply subscript_raises | intros; apply subscript_raises].
Qed.

(** [nodes[0]] is reached only for a truthy [nodes] whose [len] is
    positive, so it never raises IndexError. *)
Lemma latest_release_of_raises repo : raises_only subscript_error (latest_release_of repo).
Proof.
  unfold latest_release_of.
  destruct (releases_nodes repo) as [nodes | e] eqn:E; cbn [bind].
  - unfold subscript_error.
    destruct nodes as [| b | n | f | s | l | d]; cbn [truthy].
    + apply raises_only_Ok.
    + destruct b; [| apply raises_only_Ok]. intros e [= <-]. auto.
    + destruct (negb (n =? 0)%Z); [| apply raises_only_Ok]. intros e [= <-]. auto.
    + destruct (float_nonzero f); [| apply raises_only_Ok]. intros e [= <-]. auto.
    + destruct s as [| c s]; cbn; apply raises_only_Ok.
    + destruct l as [| x l]; cbn; apply raises_only_Ok.
    + destruct d as [| kv d]; cbn; [apply raises_only_Ok |]. intros e [= <-]. auto.
  - intros e' [= <-]. apply (releases_nodes_raises repo). exact E.
Qed.

Lemma render_repository_raises repo languages latest_release :
  raises_only subscript_error (render_repository repo languages latest_release).
Proof.
  destruct repo as [| b | n | f | s | l | d];
    try (intros e [= <-]; left; reflexivity).
  unfold render_repository.
  repeat first
    [ apply raises_only_Ok
    | apply subscript_raises
    | apply as_str_raises
    | apply join_raises
    | apply raises_only_if
    | apply raises_only_bind; [| intros ? _] ].
Qed.

Lemma repository_reply_raises owner name data :
  raises_only subscript_error (repository_reply owner name data).
Proof.
  unfold repository_reply.
  destruct data as [r |]; [| apply raises_only_Ok].
  repeat first
    [ apply raises_only_Ok
    | apply subscript_raises
    | apply py_in_raises
    | apply py_iter_raises
    | apply latest_release_of_raises
    | apply render_repository_raises
    | apply comprehension_raises; intros ?
    | apply raises_only_if
    | apply raises_only_bind; [| intros ? _] ].
Qed.

(** X6.  Whatever the remote does, the only exceptions that leave
    [get_repository_info] are the TypeError and the KeyError of a
    subscript on the payload: no transport exception, no IndexError and no
    AttributeError gets out. *)
Theorem get_repository_info_raises_only_subscript_errors
    (env : environment) (api : remote) (owner name : string) (e : exn) :
  fst (get_repository_info env api owner name) = Raise e ->
  e = TypeError \/ e = KeyError.
Proof.
  rewrite get_repository_info_reply. apply repository_reply_raises.
Qed.

Lemma get_repository_info_raises_only_subscript_errors_witness :
  fst (get_repository_info no_token
         (always 200 (Some (Schema.data_body "repository" (VDict [("name", VStr "x")]))))
         "octocat" "Hello-World") = Raise KeyError
  /\ (KeyError = TypeError \/ KeyError = KeyError).
Proof.
  split; [reflexivity |].
  apply (get_repository_info_raises_only_subscript_errors no_token
           (always 200 (Some (Schema.data_body "repository" (VDict [("name", VStr "x")]))))
           "octocat" "Hello-World" KeyError).
  reflexivity.
Defined.

(** ** The three kinds of reply *)

Lemma render_repository_text repo languages latest_release text :
  render_repository repo languages latest_release = Ok text ->
  exists s, text = format_repository_summary s.
Proof.
  unfold render_repository. intros H.
  repeat match type of H with
         | bind ?c _ = Ok _ => destruct c; cbn [bind] in H; [| discriminate H]
         end.
  injection H as <-. eexists. reflexivity.
Qed.

Lemma format_repository_summary_starts_with_newline s :
  exists rest, format_repository_summary s = String (ascii_of_N 10) rest.
Proof.
  unfold format_repository_summary, newline. eexists. reflexivity.
Qed.

(** X7.  [get_repository_info] returns the generic message only when the
    client gave it nothing to work with: exactly when
    [make_github_request] returned None, or a falsy body, or a body in which
    ["data" in body] is false.  A not-found message or a summary is never
    that text. *)
Theorem generic_message_exactly_on_failure
    (env : environment) (api : remote) (owner name : string) :
  fst (get_repository_info env api owner name)
    = Ok "Unable to fetch repository information."
  <-> match fst (make_github_request env api
                   (nth 0 (repository_arguments owner name) VNone)
                   (nth 1 (repository_arguments owner name) VNone)) with
      | None => True
      | Some r => truthy r = false \/ py_in "data" r = Ok false
      end.
Proof.
  rewrite get_repository_info_reply.
  split; [| apply repository_reply_unable].
  destruct (fst (make_github_request _ _ _ _)) as [r |]; [| trivial].
  unfold repository_reply.
  destruct (truthy r); [| auto]. cbn [negb].
  destruct (py_in "data" r) as [[|] | e]; cbn [bind negb]; [| auto | discriminate].
  intros H. exfalso.
  destruct (subscript r "data") as [payload | e]; cbn [bind] in H; [| discriminate H].
  destruct (subscript payload "repository") as [repo | e]; cbn [bind] in H; [| discriminate H].
  destruct (truthy repo); cbn [negb] in H; [| discriminate H].
  repeat match type of H with
         | bind ?c _ = Ok _ => destruct c; cbn [bind] in H; [| discriminate H]
         end.
  apply render_repository_text in H. destruct H as [s H].
  destruct (format_repository_summary_starts_with_newline s) as [rest E].
  rewrite E in H. discriminate H.
Qed.

(** X8.  The handler prints nothing of its own: its diagnostics are the
    client's.  So whenever a line was printed the reply is the generic
    message; a call that raises, reports not-found or renders a summary
    printed nothing. *)
Theorem printed_line_means_generic_message
    (env : environment) (api : remote) (owner name : string) :
  snd (get_repository_info env api owner name)
    = snd (make_github_request env api
             (nth 0 (repository_arguments owner name) VNone)
             (nth 1 (repository_arguments owner name) VNone))
  /\ (fst (get_repository_info env api owner name)
        <> Ok "Unable to fetch repository information." ->
      snd (get_repository_info env api owner name) = []).
Proof.
  unfold get_repository_info, call_make_github_request, repository_arguments. cbn [nth].
  destruct (make_github_request_cases env api
              (VStr (strip (replace_char (ascii_of_N 10) " " repository_query)))
              (VDict [("owner", VStr owner); ("name", VStr name)]))
    as [[r ->] | [printed ->]]; cbn [fst snd].
  - split; reflexivity.
  - split; [reflexivity |]. intros H. elim H. reflexivity.
Qed.

(** X9.  For a 2xx answer carrying a conforming repository the handler
    prints nothing and returns the ten-line summary below: the name, the
    description (No description for a missing key, None for a null), the
    URL, the four counts in decimal, the primary language or None, the
    language names in the order received joined by a comma and a space,
    and the first release as tag and timestamp, or None. *)
Theorem repository_summary_in_full
    (env : environment) (api : remote) (owner name : string)
    (status : Z) (r : Schema.repository) :
  answers api (repository_request env owner name) status
    (Some (Schema.data_body "repository" (Schema.encode_repository r))) ->
  200 <= status <= 299 ->
  get_repository_info env api owner name
  = (Ok ("
Repository: " ++ Schema.name r ++ "
Description: "
     ++ match Schema.description r with
        | Schema.Absent => "No description"
        | Schema.Null => "None"
        | Schema.Present d => d
        end ++ "
URL: " ++ Schema.url r ++ "
Stars: " ++ NilZero.string_of_int (Z.to_int (Schema.stargazerCount r)) ++ "
Forks: " ++ NilZero.string_of_int (Z.to_int (Schema.forkCount r)) ++ "
Open Issues: " ++ NilZero.string_of_int (Z.to_int (Schema.issues r)) ++ "
Open Pull Requests: " ++ NilZero.string_of_int (Z.to_int (Schema.pullRequests r)) ++ "
Primary Language: "
     ++ match Schema.primaryLanguage r with
        | Some l => l
        | None => "None"
        end ++ "
Languages: " ++ String.concat ", " (Schema.languages r) ++ "
Latest Release: "
     ++ match Schema.releases r with
        | [] => "None"
        | rel :: _ => Schema.tagName rel ++ " (" ++ Schema.publishedAt rel ++ ")"
        end ++ "
"),
     []).
Proof.
  intros Hans Hok.
  unfold get_repository_info, call_make_github_request, repository_arguments.
  unfold repository_request, repository_arguments in Hans. cbn [nth] in Hans.
  rewrite (make_github_request_success_printed _ _ _ _ _ _ Hans Hok eq_refl).
  rewrite repository_reply_displays, displayed_repository_text. reflexivity.
Qed.

Lemma repository_summary_in_full_witness :
  get_repository_info no_token (always 200 (Some hello_world_body)) "octocat" "Hello-World"
  = (Ok "
Repository: Hello-World
Description: None
URL: https://github.com/octocat/Hello-World
Stars: 42
Forks: 7
Open Issues: 3
Open Pull Requests: 1
Primary Language: None
Languages: C, Go
Latest Release: v1.0 (2024-01-01T00:00:00Z)
",
     []).
Proof.
  exact (repository_summary_in_full no_token (always 200 (Some hello_world_body))
           "octocat" "Hello-World" 200 hello_world
           eq_refl ltac:(lia)).
Defined.

(** ** The request the repository handler sends *)

(** X1.  [get_repository_info] consults the remote with exactly the request
    written out below: a POST to the GraphQL URL with a 30 second timeout, a
    bearer header made from the token (the text Bearer None when the
    variable is unset), a JSON content type, the query document on one line,
    the same for every owner and name, and the owner and name unchanged as
    the two variables.  If the POST of this request times out the handler
    prints the timeout line and returns the generic message; if it is
    answered with a 2xx status and a null repository the handler prints
    nothing and reports the pair not found. *)
Theorem repository_request_shape
    (env : environment) (owner name : string) (api : remote) :
  let sent :=
    {| url := "https://api.github.com/graphql";
       headers :=
         [("Authorization",
            "Bearer " ++ match GITHUB_TOKEN env with Some t => t | None => "None" end);
          ("Content-Type", "application/json")];
       json :=
         VDict [("query", VStr "query($owner: String!, $name: String!) {       repository(owner: $owner, name: $name) {         name         description         url         stargazerCount         forkCount         issues(states: OPEN) {           totalCount         }         pullRequests(states: OPEN) {           totalCount         }         primaryLanguage {           name         }         languages(first: 10) {           nodes {             name           }         }         releases(last: 1) {           nodes {             tagName             publishedAt           }         }       }     }");
                ("variables", VDict [("owner", VStr owner); ("name", VStr name)])];
       timeout := 30 |} in
  (api sent = Raise TimeoutException ->
   get_repository_info env api owner name
   = (Ok "Unable to fetch repository information.", [RequestTimedOut]))
  /\ (forall status,
      200 <= status <= 299 ->
      api sent = Ok {| status_code := status;
                       body := Some (VDict [("data", VDict [("repository", VNone)])]) |} ->
      get_repository_info env api owner name
      = (Ok ("Repository " ++ owner ++ "/" ++ name ++ " not found."), [])).
Proof.
  intros sent.
  assert (Hsent : repository_request env owner name = sent).
  { unfold repository_request, repository_arguments, post_request, token_value, sent.
    cbn [nth]. destruct (GITHUB_TOKEN env); reflexivity. }
  unfold repository_request, repository_arguments in Hsent. cbn [nth] in Hsent.
  split.
  - intros Htimeout.
    unfold get_repository_info, call_make_github_request, repository_arguments,
      make_github_request, attempt.
    rewrite Hsent, Htimeout. reflexivity.
  - intros status Hok Hanswer.
    unfold get_repository_info, call_make_github_request, repository_arguments.
    rewrite (make_github_request_success_printed env api _ _ status
               (VDict [("data", VDict [("repository", VNone)])])).
    + reflexivity.
    + unfold answers. rewrite Hsent. exact Hanswer.
    + exact Hok.
    + reflexivity.
Qed.

(** ** The statements of get_user_info that follow the client call *)

Lemma user_reply_unable username (data : option value) :
  match data with
  | None => True
  | Some r => truthy r = false \/ py_in "data" r = Ok false
  end ->
  user_reply username data = Ok "Unable to fetch user information.".
Proof.
  destruct data as [r |]; [| reflexivity].
  unfold user_reply. intros [Hfalsy | Hin].
  - rewrite Hfalsy. reflexivity.
  - destruct (truthy r); [| reflexivity]. rewrite Hin. reflexivity.
Qed.

(** X10.  The statements that follow the client call in [get_user_info]
    (which the call, as written, never lets run: see C1), given a client
    result: None, a falsy body or a body without [data] give the generic
    user message; a falsy [data.user] gives the not-found message, in which
    the username stands verbatim. *)
Theorem user_reply_early_exits (username : string) :
  (forall data,
      match data with
      | None => True
      | Some r => truthy r = false \/ py_in "data" r = Ok false
      end ->
      user_reply username data = Ok "Unable to fetch user information.")
  /\ (forall d payload user,
      dict_get "data" d = Some payload ->
      subscript payload "user" = Ok user ->
      truthy user = false ->
      user_reply username (Some (VDict d)) = Ok ("User " ++ username ++ " not found.")
      /\ contains username ("User " ++ username ++ " not found.") = true).
Proof.
  split; [apply user_reply_unable |].
  intros d payload user Hdata Huser Hfalsy. split.
  - unfold user_reply.
    destruct d as [| kv d']; [discriminate Hdata |].
    cbn [truthy negb]. cbn [py_in bind]. rewrite Hdata. cbn [negb].
    cbn [subscript bind]. rewrite Hdata. cbn [bind]. rewrite Huser. cbn [bind].
    rewrite Hfalsy. reflexivity.
  - apply contains_append.
Qed.

(** X11.  The same statements on a conforming user give the eleven-line
    summary below, where each of name, bio, company, location, email and
    website shows its placeholder when the key is missing, None when it is
    null and the str otherwise, and the four counts are printed in
    decimal. *)
Theorem user_reply_displays (username : string) (u : Schema.user) :
  user_reply username (Some (Schema.data_body "user" (Schema.encode_user u)))
  = Ok ("
Name: " ++ get_text "Not provided" (Schema.user_name u) ++ "
Username: " ++ Schema.login u ++ "
Bio: " ++ get_text "No bio" (Schema.bio u) ++ "
Company: " ++ get_text "Not provided" (Schema.company u) ++ "
Location: " ++ get_text "Not provided" (Schema.location u) ++ "
Email: " ++ get_text "Not provided" (Schema.email u) ++ "
Website: " ++ get_text "Not provided" (Schema.websiteUrl u) ++ "
Public Repositories: " ++ NilZero.string_of_int (Z.to_int (Schema.repositories u)) ++ "
Followers: " ++ NilZero.string_of_int (Z.to_int (Schema.followers u)) ++ "
Following: " ++ NilZero.string_of_int (Z.to_int (Schema.following u)) ++ "
Total Contributions: "
        ++ NilZero.string_of_int (Z.to_int (Schema.totalCommitContributions u)) ++ "
").
Proof.
  transitivity (Ok (format_user_summary (displayed_user u))).
  - destruct u as [nm lg bi co lo em we re fo fg tc].
    destruct nm, bi, co, lo, em, we; reflexivity.
  - unfold format_user_summary, line, newline, displayed_user, py_int_str.
    cbn [summary_user_name summary_username summary_bio summary_company summary_location
         summary_email summary_website summary_public_repositories summary_followers
         summary_following summary_total_contributions].
    rewrite !append_assoc. reflexivity.
Qed.

(** ** Release nodes the schema allows but the handler does not expect *)

Lemma get_repository_info_always env owner name b :
  py_in "errors" b = Ok false ->
  fst (get_repository_info env (always 200 (Some b)) owner name)
  = repository_reply owner name (Some b).
Proof.
  intros Herr. rewrite get_repository_info_reply.
  rewrite (make_github_request_success env (always 200 (Some b)) _ _ 200 b);
    [reflexivity | reflexivity | lia | exact Herr].
Qed.

(** X12.  Two edges of the release line, for a 200 answer carrying an
    otherwise conforming repository.  A first release node that is falsy
    (null, an empty object) is taken for no release: the reply is the
    summary for an empty release list.  A first release with a tag but a
    null [publishedAt] makes the handler raise TypeError, whatever nodes
    follow it. *)
Theorem release_node_edges
    (env : environment) (owner name : string) (r : Schema.repository) :
  (forall first rest,
      truthy first = false ->
      fst (get_repository_info env
             (always 200 (Some (Schema.data_body "repository"
                                  (with_release_nodes (first :: rest) r))))
             owner name)
      = Ok (format_repository_summary (Schema.displayed_repository (without_releases r))))
  /\ (forall tag rest,
      fst (get_repository_info env
             (always 200 (Some (Schema.data_body "repository"
                                  (with_release_nodes
                                     (VDict [("tagName", VStr tag); ("publishedAt", VNone)]
                                      :: rest) r))))
             owner name)
      = Raise TypeError).
Proof.
  destruct r as [nm desc u stars forks iss prs prim langs rels].
  split.
  - intros first rest Hfalsy.
    rewrite get_repository_info_always by reflexivity.
    destruct desc, prim.
    all: cbn.
    all: rewrite comprehension_names; cbn; rewrite join_strs; cbn.
    all: rewrite Hfalsy; reflexivity.
  - intros tag rest.
    rewrite get_repository_info_always by reflexivity.
    destruct desc, prim.
    all: cbn.
    all: rewrite comprehension_names; cbn; rewrite join_strs; reflexivity.
Qed.
